(** * MediaDrop: the sitemaps controller

    A shallow embedding of [mediadrop/controllers/sitemaps.py]
    ([SitemapsController]) and the properties of its five actions:
    [google], [mrss], [latest], [featured] and [crossdomain_xml].

    The controller is Python 2 code on top of Pylons and SQLAlchemy.
    Each action is embedded as a function from the request environment
    (site settings, media table, request parameters) to a [Response],
    where [abort(404)] / [raise HTTPNotFound()] is the [NotFound] case.
    The module-level global [crossdomain_app] is threaded explicitly.

    The decorators around the actions ([beaker_cache], [expose],
    [observable]) and the negotiated [response.content_type] do not
    change the value an action returns and are left out; [validate]
    is modelled, as it converts the parameters of [latest] and
    [featured]. *)

From Stdlib Require Import ZArith Lia Bool Ascii String List SpecFloat.
From stdpp Require Import base list sorting.

Local Open Scope string_scope.
Local Open Scope list_scope.
Local Open Scope Z_scope.

(** ** Python values used by the controller *)

Module Py.

(** *** [int(s)] on a string

    [int] strips surrounding whitespace, accepts one optional sign and
    then requires decimal digits, at least one; anything else raises
    [ValueError], which is the [None] case here. *)

Definition is_space (c : ascii) : bool :=
  let n := nat_of_ascii c in
  ((9 <=? n) && (n <=? 13))%nat || (n =? 32)%nat.

Definition digit_of (c : ascii) : option Z :=
  let n := nat_of_ascii c in
  if ((48 <=? n) && (n <=? 57))%nat then Some (Z.of_nat n - 48) else None.

Fixpoint lstrip (s : string) : string :=
  match s with
  | String c s' => if is_space c then lstrip s' else s
  | EmptyString => EmptyString
  end.

Fixpoint rstrip (s : string) : string :=
  match s with
  | String c s' =>
      match rstrip s' with
      | EmptyString => if is_space c then EmptyString else String c EmptyString
      | r => String c r
      end
  | EmptyString => EmptyString
  end.

Definition strip (s : string) : string := rstrip (lstrip s).

(** Value of a run of digits, most significant first; [None] on a
    character that is not a digit. *)
Fixpoint digits (acc : Z) (s : string) : option Z :=
  match s with
  | EmptyString => Some acc
  | String c s' =>
      match digit_of c with
      | Some d => digits (10 * acc + d) s'
      | None => None
      end
  end.

Definition unsigned (s : string) : option Z :=
  match s with
  | EmptyString => None
  | _ => digits 0 s
  end.

Definition int (s : string) : option Z :=
  match strip s with
  | String "-" s' => option_map Z.opp (unsigned s')
  | String "+" s' => unsigned s'
  | s' => unsigned s'
  end.

(** Truth value of a string: only the empty string is false. *)
Definition truthy (s : string) : bool :=
  match s with
  | EmptyString => false
  | _ => true
  end.

(** *** Floating point

    [media_count / float(1000)] is a binary64 division and [math.ceil]
    is taken of its result.  A finite non-negative binary64 value is
    [f_mant * 2 ^ f_exp]; results of operations are rounded to 53
    significant bits, ties to even.  The exponent range is not
    modelled: the operands are a row count and [1000]. *)

Record float := { f_mant : Z; f_exp : Z }.

(** [a / b] rounded to the nearest integer, ties to even ([0 < b]). *)
Definition rne_div (a b : Z) : Z :=
  let q := a / b in
  let r := a mod b in
  if 2 * r <? b then q
  else if b <? 2 * r then q + 1
  else if Z.even q then q else q + 1.

(** [floor (log2 (p / q))] for [0 < p] and [0 < q]. *)
Definition ilog2_ratio (p q : Z) : Z :=
  let d := Z.log2 p - Z.log2 q in
  let above := if 0 <=? d then q * 2 ^ d <=? p else q <=? p * 2 ^ (- d) in
  if above then d else d - 1.

(** The binary64 value nearest to [p / q] ([0 <= p], [0 < q]). *)
Definition round53 (p q : Z) : float :=
  if p =? 0 then {| f_mant := 0; f_exp := 0 |}
  else
    let e := ilog2_ratio p q - 52 in
    if 0 <=? e then {| f_mant := rne_div p (q * 2 ^ e); f_exp := e |}
    else {| f_mant := rne_div (p * 2 ^ (- e)) q; f_exp := e |}.

(** [float(n)] for a non-negative [int]. *)
Definition float_of_int (n : Z) : float := round53 n 1.

(** [x / y] for non-negative [x] and positive [y]. *)
Definition fdiv (x y : float) : float :=
  let e := Z.min (f_exp x) (f_exp y) in
  round53 (f_mant x * 2 ^ (f_exp x - e)) (f_mant y * 2 ^ (f_exp y - e)).

(** [math.ceil(x)], as the integer it denotes (Python 2 returns it as
    a float with that value). *)
Definition ceil (x : float) : Z :=
  if 0 <=? f_exp x then f_mant x * 2 ^ f_exp x
  else - ((- f_mant x) / 2 ^ (- f_exp x)).

(** The same operations in the Standard Library's executable model of
    IEEE 754 ([SpecFloat], here at the binary64 format), against which
    the definitions above are checked on sample counts. *)
Definition to_spec (x : float) : spec_float :=
  match f_mant x with
  | Zpos m => S754_finite false m (f_exp x)
  | _ => S754_zero false
  end.

Definition spec_of_int (n : Z) : spec_float :=
  binary_normalize 53 1024 n 0 false.

Definition spec_div : spec_float -> spec_float -> spec_float :=
  SFdiv 53 1024.

End Py.

(** ** Collaborators of the controller *)

(** Modelled from the spec: the site settings store ([request.settings]),
    a string-keyed store of string-valued flags.  Only the three keys
    the controller reads are kept; the store defines all of them. *)
Record Settings := {
  sitemaps_display : string;
  rss_display : string;
  appearance_enable_cooliris : string;
}.

(** Modelled from the spec: the media repository ([mediadrop.model.Media]
    and its query class, the [viewable_media] helper and SQLAlchemy's
    generative query interface), which is not part of the controller's
    file.  A media item carries an identifier, a publish timestamp, its
    category membership and two status bits decided by the repository;
    a query is the description that the filter chain builds up, and
    [run] evaluates it on the media table the way the generated
    [SELECT ... WHERE ... ORDER BY ... LIMIT ... OFFSET ...] does:
    filter, then order, then skip [OFFSET] rows, then keep [LIMIT]
    rows, whatever the order of the [limit] and [offset] calls. *)
Module Model.

Definition Category := nat.

Record Media := {
  media_id : nat;
  publish_on : Z;
  is_published : bool;
  is_viewable : bool;
  categories : list Category;
}.

Inductive Filter :=
| Published
| InCategory (c : Category)
| Viewable.

Inductive Order :=
| PublishOnDesc.

Record Query := {
  q_filters : list Filter;
  q_order : option Order;
  q_limit : option Z;
  q_offset : option Z;
}.

(** [Media.query] *)
Definition query : Query :=
  {| q_filters := []; q_order := None; q_limit := None; q_offset := None |}.

Definition add_filter (f : Filter) (q : Query) : Query :=
  {| q_filters := q_filters q ++ [f]; q_order := q_order q;
     q_limit := q_limit q; q_offset := q_offset q |}.

Definition published : Query -> Query := add_filter Published.

Definition in_category (c : Category) : Query -> Query :=
  add_filter (InCategory c).

Definition order_by (o : Order) (q : Query) : Query :=
  {| q_filters := q_filters q; q_order := Some o;
     q_limit := q_limit q; q_offset := q_offset q |}.

Definition limit (n : Z) (q : Query) : Query :=
  {| q_filters := q_filters q; q_order := q_order q;
     q_limit := Some n; q_offset := q_offset q |}.

Definition offset (n : Z) (q : Query) : Query :=
  {| q_filters := q_filters q; q_order := q_order q;
     q_limit := q_limit q; q_offset := Some n |}.

Definition holds (f : Filter) (m : Media) : bool :=
  match f with
  | Published => is_published m
  | InCategory c => existsb (Nat.eqb c) (categories m)
  | Viewable => is_viewable m
  end.

Definition matches (fs : list Filter) (m : Media) : bool :=
  forallb (fun f => holds f m) fs.

(** [a] comes no later than [b] under [ORDER BY publish_on DESC]. *)
Definition newer_first (a b : Media) : Prop := publish_on b <= publish_on a.

#[global] Instance newer_first_dec : RelDecision newer_first.
Proof. intros a b. unfold newer_first. apply Z_le_dec. Defined.

Definition ordered (o : option Order) (rows : list Media) : list Media :=
  match o with
  | Some PublishOnDesc => merge_sort newer_first rows
  | None => rows
  end.

(** Negative [LIMIT] and [OFFSET] values are treated differently by
    different database backends; they count as [0] here, and the
    statements below about the selected rows are made for non-negative
    values. *)
Definition window (lim off : option Z) (rows : list Media) : list Media :=
  let rows := match off with
              | Some n => skipn (Z.to_nat n) rows
              | None => rows
              end in
  match lim with
  | Some n => firstn (Z.to_nat n) rows
  | None => rows
  end.

Definition run (db : list Media) (q : Query) : list Media :=
  window (q_limit q) (q_offset q)
    (ordered (q_order q) (List.filter (matches (q_filters q)) db)).

(** The viewable-and-published media of a table, in table order: what
    the specification calls the media set of [google] and [mrss]. *)
Definition viewable_published (db : list Media) : list Media :=
  List.filter (fun m => is_published m && is_viewable m) db.

(** The rows of a table that belong to category [c]. *)
Definition in_category_rows (c : Category) (db : list Media) : list Media :=
  List.filter (holds (InCategory c)) db.

(** The rows a feed shows out of [rows]: [skip] rows are passed over
    when [skip] is positive, and at most [limit] rows are kept when a
    limit is set. *)
Definition paged (limit : option Z) (skip : Z) (rows : list Media)
  : list Media :=
  let rows := if 0 <? skip then skipn (Z.to_nat skip) rows else rows in
  match limit with
  | Some n => firstn (Z.to_nat n) rows
  | None => rows
  end.

(** [q.count()] *)
Definition count (db : list Media) (q : Query) : Z :=
  Z.of_nat (length (run db q)).

(** [len(q)] *)
Definition len (db : list Media) (q : Query) : Z :=
  Z.of_nat (length (run db q)).

End Model.

(** The helpers imported from [mediadrop.lib.helpers]. *)
Module Helpers.

(** [viewable_media(query)]: the query restricted to what the current
    user may view. *)
Definition viewable_media : Model.Query -> Model.Query :=
  Model.add_filter Model.Viewable.

(** [url_for(controller=..., show=..., qualified=...)]: a link is kept
    as the destination it names. *)
Record Url := url_for {
  controller : string;
  show : option string;
  qualified : bool;
}.

(** [os.path.join(a, b)] of [posixpath]. *)
Definition startswith_slash (s : string) : bool :=
  match s with
  | String "/" _ => true
  | _ => false
  end.

Fixpoint endswith_slash (s : string) : bool :=
  match s with
  | EmptyString => false
  | String c EmptyString => Ascii.eqb c "/"
  | String _ s' => endswith_slash s'
  end.

Definition path_join (a b : string) : string :=
  if startswith_slash b then b
  else if String.eqb a "" || endswith_slash a then (a ++ b)%string
  else (a ++ "/" ++ b)%string.

(** [paste.fileapp.FileApp(filename)] *)
Record FileApp := { filename : string }.

End Helpers.

(** ** [formencode] validation in front of [latest] and [featured] *)

Module Validation.

(** Outcome of a validator: the converted value, or [formencode.Invalid]. *)
Inductive Validated (A : Type) :=
| Valid (a : A)
| Invalid.
Arguments Valid {A} a.
Arguments Invalid {A}.

(** [validators.Int(if_empty=.., if_missing=.., if_invalid=..)].  The
    controller always gives [if_empty]; for [if_missing] and
    [if_invalid] a keyword that is not given ([NoDefault]) is [None],
    and the validator then reports the missing or invalid value. *)
Record Int := {
  if_empty : Z;
  if_missing : option Z;
  if_invalid : option Z;
}.

(** [Int._to_python]: [int(value)], with [ValueError] turned into
    [Invalid]. *)
Definition Int_to_python (value : string) : Validated Z :=
  match Py.int value with
  | Some n => Valid n
  | None => Invalid
  end.

(** [FancyValidator.to_python], specialised to [Int], applied to one
    request parameter; an absent parameter takes [if_missing]. *)
Definition to_python (v : Int) (param : option string) : Validated Z :=
  match param with
  | None =>
      match if_missing v with
      | Some d => Valid d
      | None => Invalid
      end
  | Some EmptyString => Valid (if_empty v)
  | Some value =>
      match Int_to_python value with
      | Valid n => Valid n
      | Invalid =>
          match if_invalid v with
          | Some d => Valid d
          | None => Invalid
          end
      end
  end.

(** Modelled from the spec: [mediadrop.validation.LimitFeedItemsValidator],
    which is not part of the controller's file.  It bounds the limit by
    an application-defined maximum; an invalid or missing value becomes
    unset ([None], no limit). *)
Definition LimitFeedItemsValidator (maximum : Z) (param : option string)
  : Validated (option Z) :=
  match param with
  | None => Valid None
  | Some value =>
      match Py.int value with
      | Some n => Valid (Some (Z.min n maximum))
      | None => Valid None
      end
  end.

End Validation.

(** ** The controller *)

Inductive Response (A : Type) :=
| Ok (a : A)
| NotFound.
Arguments Ok {A} a.
Arguments NotFound {A}.

(** What an action receives besides its parameters. *)
Record Env := {
  settings : Settings;              (* request.settings *)
  db : list Model.Media;            (* the media table *)
  featured_category : Model.Category; (* get_featured_category() *)
  here : string;                    (* config['here'] *)
  feed_items_maximum : Z;           (* bound of LimitFeedItemsValidator *)
}.

(** The same site with only the media of its featured category: the
    media set that the specification has [featured] start from. *)
Definition featured_only (env : Env) : Env :=
  {| settings := settings env;
     db := Model.in_category_rows (featured_category env) (db env);
     featured_category := featured_category env;
     here := here env;
     feed_items_maximum := feed_items_maximum env |}.

Module SitemapsController.

Import Model Helpers.

Definition SITEMAP_MEDIA_LIMIT : Z := 1000.

(** The two shapes [google] returns: [dict(pages=...)] and
    [dict(media=..., page=..., links=...)]. *)
Inductive Sitemap :=
| SitemapIndex (pages : Z)
| UrlSet (media : Query) (page : Z) (links : list Url).

(** [dict(media=..., title=...)] *)
Record Feed := {
  feed_media : Query;
  feed_title : string;
}.

Definition enabled (flag : string) : bool := String.eqb flag "True".

(** [page = int(page)] under [try ... except (ValueError, TypeError)]. *)
Definition parse_page (page : option string) : Response (option Z) :=
  match page with
  | None => Ok None
  | Some s =>
      match Py.int s with
      | Some n => Ok (Some n)
      | None => NotFound
      end
  end.

Definition sitemap_links : list Url :=
  [ url_for "/" None true;
    url_for "/media" (Some "popular") true;
    url_for "/media" (Some "latest") true;
    url_for "/categories" None true ].

(** The items of page [p] of the sitemap, as the specification words
    it: the media set sliced at offset [p * 1000] with limit [1000]. *)
Definition page_items (db : list Media) (p : Z) : list Media :=
  firstn 1000 (skipn (Z.to_nat (p * 1000)) (viewable_published db)).

(** The page a request selects: the one it names, and page [0] when it
    names none. *)
Definition requested_page (page : option string) : Z :=
  match page with
  | Some s =>
      match Py.int s with
      | Some p => p
      | None => 0
      end
  | None => 0
  end.

(** Lines 79 to 97 of [google]: the page of items. *)
Definition google_urlset (env : Env) (media : Query) (page : Z)
  : Response Sitemap :=
  let media := limit SITEMAP_MEDIA_LIMIT
                 (offset (page * SITEMAP_MEDIA_LIMIT) media) in
  if len (db env) media =? 0 then NotFound
  else
    let links := if 1 <=? page then [] else sitemap_links in
    Ok (UrlSet media page links).

Definition google (env : Env) (page : option string) : Response Sitemap :=
  if negb (enabled (sitemaps_display (settings env))) then NotFound
  else
    match parse_page page with
    | NotFound => NotFound
    | Ok page =>
        let media := viewable_media (published query) in
        match page with
        | None =>
            let media_count := count (db env) media in
            if SITEMAP_MEDIA_LIMIT <? media_count then
              Ok (SitemapIndex
                    (Py.ceil (Py.fdiv (Py.float_of_int media_count)
                                (Py.float_of_int SITEMAP_MEDIA_LIMIT))))
            else google_urlset env media 0
        | Some page => google_urlset env media page
        end
    end.

Definition mrss (env : Env) : Response Feed :=
  if negb (enabled (sitemaps_display (settings env))) then NotFound
  else
    let media := viewable_media (published query) in
    Ok {| feed_media := media; feed_title := "MediaRSS Sitemap" |}.

Definition latest (env : Env) (limit : option Z) (skip : Z) : Response Feed :=
  if negb (enabled (rss_display (settings env))) then NotFound
  else
    let media_query := order_by PublishOnDesc (published query) in
    let media := viewable_media media_query in
    let media := match limit with
                 | Some n => Model.limit n media
                 | None => media
                 end in
    let media := if 0 <? skip then offset skip media else media in
    Ok {| feed_media := media; feed_title := "Latest Media" |}.

Definition featured (env : Env) (limit : option Z) (skip : Z) : Response Feed :=
  if negb (enabled (rss_display (settings env))) then NotFound
  else
    let media_query :=
      order_by PublishOnDesc
        (published (in_category (featured_category env) query)) in
    let media := viewable_media media_query in
    let media := match limit with
                 | Some n => Model.limit n media
                 | None => media
                 end in
    let media := if 0 <? skip then offset skip media else media in
    Ok {| feed_media := media; feed_title := "Featured Media" |}.

(** The [@validate] decorator in front of [latest] and [featured]: both
    parameters are validated, and the action runs on the converted
    values when neither validator reports an error. *)
Inductive Validated_call (A : Type) :=
| Called (r : Response A)
| Rejected.
Arguments Called {A} r.
Arguments Rejected {A}.

Definition skip_validator : Validation.Int :=
  {| Validation.if_empty := 0;
     Validation.if_missing := Some 0;
     Validation.if_invalid := Some 0 |}.

Definition validate (env : Env)
    (action : Env -> option Z -> Z -> Response Feed)
    (limit skip : option string) : Validated_call Feed :=
  match Validation.LimitFeedItemsValidator (feed_items_maximum env) limit,
        Validation.to_python skip_validator skip with
  | Validation.Valid limit, Validation.Valid skip =>
      Called (action env limit skip)
  | _, _ => Rejected
  end.

Definition latest_action (env : Env) (limit skip : option string) :=
  validate env latest limit skip.

Definition featured_action (env : Env) (limit skip : option string) :=
  validate env featured limit skip.

(** [crossdomain_xml] reads and writes the module-level global
    [crossdomain_app]; it takes the global's value and returns the new
    one with the response.  A successful response is the file
    application the request is forwarded to. *)
Definition crossdomain_xml (env : Env) (crossdomain_app : option FileApp)
  : Response FileApp * option FileApp :=
  if negb (Py.truthy (appearance_enable_cooliris (settings env))) then
    let crossdomain_app :=
      match crossdomain_app with
      | Some _ => None
      | None => crossdomain_app
      end in
    (NotFound, crossdomain_app)
  else
    let app :=
      match crossdomain_app with
      | Some app => app
      | None =>
          let relpath := "mediadrop/public/crossdomain.xml" in
          let abspath := path_join (here env) relpath in
          {| filename := abspath |}
      end in
    (Ok app, Some app).

(** The file application that [crossdomain_xml] constructs when none is
    cached. *)
Definition crossdomain_file (env : Env) : FileApp :=
  {| filename := path_join (here env) "mediadrop/public/crossdomain.xml" |}.

End SitemapsController.

(** ** What a response shows

    The media rows that the template of an action iterates over: the
    rows of the query in the returned value, and none when the action
    answers [NotFound] or returns the sitemap index. *)

Definition sitemap_rows (env : Env) (page : option string)
  : list Model.Media :=
  match SitemapsController.google env page with
  | Ok (SitemapsController.UrlSet q _ _) => Model.run (db env) q
  | _ => []
  end.

Definition feed_rows (env : Env) (r : Response SitemapsController.Feed)
  : list Model.Media :=
  match r with
  | Ok feed => Model.run (db env) (SitemapsController.feed_media feed)
  | NotFound => []
  end.

(** ** Sample sites

    Concrete environments on which the statements below are
    instantiated. *)

Module Sample.

Import Model.

Definition all_on : Settings :=
  {| sitemaps_display := "True"; rss_display := "True";
     appearance_enable_cooliris := "True" |}.

Definition all_off : Settings :=
  {| sitemaps_display := ""; rss_display := "";
     appearance_enable_cooliris := "" |}.

(** A published, viewable item [i], published at time [t], in
    category [0] when [i] is even and [1] when it is odd. *)
Definition item (i : nat) (t : Z) : Media :=
  {| media_id := i; publish_on := t; is_published := true;
     is_viewable := true;
     categories := [if Nat.even i then 0%nat else 1%nat] |}.

(** An item that is not published and one that the current user may
    not view, both more recent than any item of [table]. *)
Definition draft : Media :=
  {| media_id := 4001; publish_on := 2000000; is_published := false;
     is_viewable := true; categories := [1%nat] |}.

Definition restricted : Media :=
  {| media_id := 4002; publish_on := 2000001; is_published := true;
     is_viewable := false; categories := [1%nat] |}.

(** A table with [n] published, viewable items, whose distinct publish
    times are not in table order, behind [draft] and [restricted]. *)
Definition table (n : nat) : list Media :=
  draft :: restricted ::
  map (fun i => let t := Z.of_nat i in
                item i ((t * 7) mod 10 + 10 * (t / 10))) (seq 0 n).

Definition site (s : Settings) (n : nat) : Env :=
  {| settings := s; db := table n; featured_category := 1%nat;
     here := "/srv/mediadrop"; feed_items_maximum := 50 |}.

End Sample.

(** * Properties *)

(** ** Binary64 division by the page size *)

Section Float_facts.

Import Py.

Lemma rne_div_1 a : rne_div a 1 = a.
Proof.
  unfold rne_div. rewrite Z.mod_1_r, Z.div_1_r. reflexivity.
Qed.

Lemma rne_div_scale a b k :
  0 < b -> 0 < k -> rne_div (a * k) (b * k) = rne_div a b.
Proof.
  intros Hb Hk. unfold rne_div.
  rewrite Z.div_mul_cancel_r by lia.
  rewrite Z.mul_mod_distr_r by lia.
  repeat match goal with
         | |- context [?x <? ?y] => destruct (Z.ltb_spec x y)
         end; try reflexivity; nia.
Qed.

(** Rounding [a / b] to the nearest integer moves it by less than one,
    keeps an exact quotient, and rounds up past the half. *)
Lemma rne_div_range a b :
  0 < b -> a / b <= rne_div a b <= a / b + 1.
Proof.
  intros Hb. unfold rne_div.
  repeat match goal with
         | |- context [if ?c then _ else _] => destruct c
         end; lia.
Qed.

Lemma rne_div_exact a b : 0 < b -> a mod b = 0 -> rne_div a b = a / b.
Proof.
  intros Hb H0. unfold rne_div. rewrite H0.
  destruct (Z.ltb_spec (2 * 0) b); [reflexivity | lia].
Qed.

Lemma rne_div_up a b : 0 < b -> b < 2 * (a mod b) -> rne_div a b = a / b + 1.
Proof.
  intros Hb Hr. unfold rne_div.
  destruct (Z.ltb_spec (2 * (a mod b)) b); [lia |].
  destruct (Z.ltb_spec b (2 * (a mod b))); [reflexivity | lia].
Qed.

(** The ceiling of a dyadic [m / 2 ^ s] that lies in [(k, k + 1]]. *)
Lemma ceil_div_between m t k :
  0 < t -> k * t < m <= (k + 1) * t -> - ((- m) / t) = k + 1.
Proof.
  intros Ht Hm.
  assert (H : (- m) / t = - (k + 1)); [| lia].
  symmetry. apply (Z.div_unique_pos (- m) t (- (k + 1)) ((k + 1) * t - m)); lia.
Qed.

(** With at least nine fractional bits, rounding [c / 1000] does not
    cross an integer: the ceiling of the rounded quotient is the
    ceiling of the exact one. *)
Lemma ceil_rne_div_1000 c s :
  0 <= c -> 9 <= s ->
  - ((- rne_div (c * 2 ^ s) 1000) / 2 ^ s) = (c + 999) / 1000.
Proof.
  intros Hc Hs.
  assert (Ht : 512 <= 2 ^ s).
  { change 512 with (2 ^ 9). apply Z.pow_le_mono_r; lia. }
  set (t := 2 ^ s) in *.
  pose proof (Z.div_mod c 1000 ltac:(lia)) as Hdm.
  pose proof (Z.mod_pos_bound c 1000 ltac:(lia)) as Hr.
  set (k := c / 1000) in *. set (r := c mod 1000) in *.
  clearbody k r t.
  destruct (Z.eq_dec r 0) as [Hr0 | Hr0].
  - (* an exact multiple of the page size *)
    assert (Hc' : c = k * 1000) by lia.
    rewrite Hc'.
    replace (k * 1000 * t) with (k * t * 1000) by ring.
    rewrite rne_div_exact by (try rewrite Z.mod_mul; lia).
    rewrite Z.div_mul by lia.
    replace (- (k * t)) with ((- k) * t) by ring.
    rewrite Z.div_mul by lia.
    replace (k * 1000 + 999) with (999 + k * 1000) by ring.
    rewrite Z.div_add by lia. change (999 / 1000) with 0. lia.
  - (* a last, partial page *)
    assert (Hk : (c + 999) / 1000 = k + 1).
    { symmetry. apply (Z.div_unique_pos (c + 999) 1000 (k + 1) (r - 1)); lia. }
    rewrite Hk. apply ceil_div_between; [lia |].
    pose proof (rne_div_range (c * t) 1000 ltac:(lia)) as Hrange.
    pose proof (Z.div_mod (c * t) 1000 ltac:(lia)) as Hdm'.
    pose proof (Z.mod_pos_bound (c * t) 1000 ltac:(lia)) as Hr'.
    split.
    + destruct (Z_lt_le_dec (k * t) ((c * t) / 1000)) as [Hlt | Hle]; [lia |].
      (* the quotient is still [k * t]: the remainder is past the half *)
      rewrite rne_div_up; [lia | lia | nia].
    + assert ((c * t) / 1000 < (k + 1) * t); [| lia].
      apply Z.div_lt_upper_bound; nia.
Qed.

Lemma ilog2_ratio_1 c : 0 < c -> ilog2_ratio c 1 = Z.log2 c.
Proof.
  intros Hc. unfold ilog2_ratio. change (Z.log2 1) with 0.
  rewrite Z.sub_0_r.
  pose proof (Z.log2_nonneg c) as Hl.
  pose proof (Z.log2_spec c Hc) as [Hlo _].
  destruct (Z.leb_spec 0 (Z.log2 c)); [| lia].
  destruct (Z.leb_spec (1 * 2 ^ Z.log2 c) c); [reflexivity | lia].
Qed.

Lemma ilog2_ratio_le p q : ilog2_ratio p q <= Z.log2 p - Z.log2 q.
Proof.
  unfold ilog2_ratio.
  destruct (if 0 <=? Z.log2 p - Z.log2 q then _ else _); lia.
Qed.

(** An [int] below [2 ^ 53] converts to [float] without rounding. *)
Lemma float_of_int_exact c :
  0 < c < 2 ^ 53 ->
  float_of_int c =
    {| f_mant := c * 2 ^ (52 - Z.log2 c); f_exp := Z.log2 c - 52 |}.
Proof.
  intros [Hc Hlt]. unfold float_of_int, round53.
  destruct (Z.eqb_spec c 0); [lia |].
  rewrite ilog2_ratio_1 by lia.
  assert (Hl : Z.log2 c < 53) by (apply Z.log2_lt_pow2; lia).
  destruct (Z.leb_spec 0 (Z.log2 c - 52)).
  - replace (Z.log2 c - 52) with 0 by lia.
    replace (52 - Z.log2 c) with 0 by lia.
    change (1 * 2 ^ 0) with 1. rewrite rne_div_1. f_equal. lia.
  - rewrite rne_div_1.
    replace (- (Z.log2 c - 52)) with (52 - Z.log2 c) by lia. reflexivity.
Qed.

(** The page count that [google] computes, [math.ceil(c / float(1000))],
    is the integer ceiling of [c / 1000] for every count that a float
    represents exactly. *)
Lemma ceil_fdiv_1000 c :
  1000 < c < 2 ^ 53 ->
  ceil (fdiv (float_of_int c) (float_of_int 1000)) = (c + 999) / 1000.
Proof.
  intros [Hlo Hhi].
  rewrite (float_of_int_exact c) by lia.
  rewrite (float_of_int_exact 1000) by lia.
  change (Z.log2 1000) with 9.
  assert (Hl : 9 <= Z.log2 c < 53).
  { split.
    - change 9 with (Z.log2 1000). apply Z.log2_le_mono. lia.
    - apply Z.log2_lt_pow2; lia. }
  set (l := Z.log2 c) in *.
  unfold fdiv. cbn [f_mant f_exp].
  replace (Z.min (l - 52) (9 - 52)) with (9 - 52) by lia.
  replace (l - 52 - (9 - 52)) with (l - 9) by lia.
  replace (9 - 52 - (9 - 52)) with 0 by lia.
  replace (c * 2 ^ (52 - l) * 2 ^ (l - 9)) with (c * 2 ^ 43).
  2:{ rewrite <- Z.mul_assoc, <- Z.pow_add_r by lia.
      f_equal. f_equal. lia. }
  change (1000 * 2 ^ (52 - 9) * 2 ^ 0) with (1000 * 2 ^ 43).
  unfold round53.
  destruct (Z.eqb_spec (c * 2 ^ 43) 0) as [H0 | _]; [lia |].
  pose proof (ilog2_ratio_le (c * 2 ^ 43) (1000 * 2 ^ 43)) as Hle.
  rewrite !Z.log2_mul_pow2 in Hle by lia.
  change (Z.log2 1000) with 9 in Hle. fold l in Hle.
  set (e := ilog2_ratio (c * 2 ^ 43) (1000 * 2 ^ 43) - 52) in *.
  destruct (Z.leb_spec 0 e); [lia |].
  unfold ceil. cbn [f_mant f_exp].
  destruct (Z.leb_spec 0 e); [lia |].
  replace (c * 2 ^ 43 * 2 ^ (- e)) with (c * 2 ^ (- e) * 2 ^ 43) by ring.
  rewrite rne_div_scale by lia.
  apply ceil_rne_div_1000; lia.
Qed.

(** The model agrees with [SpecFloat] on counts around the page
    boundaries, on a large exact count and on one beyond [2 ^ 53]. *)
Example fdiv_matches_SpecFloat :
  let counts := [1; 999; 1000; 1001; 2000; 2001; 2500; 123456789;
                 2 ^ 53 - 1; 1000 * 2 ^ 50 + 1] in
  map (fun c => to_spec (fdiv (float_of_int c) (float_of_int 1000))) counts =
  map (fun c => spec_div (spec_of_int c) (spec_of_int 1000)) counts.
Proof. vm_compute. reflexivity. Qed.

(** Why [ceil_fdiv_1000] stops at [2 ^ 53]: a count far beyond it is
    rounded when converted, and the quotient loses the last page. *)
Example ceil_fdiv_1000_beyond :
  let c := 1000 * 2 ^ 50 + 1 in
  ceil (fdiv (float_of_int c) (float_of_int 1000)) = 2 ^ 50 /\
  (c + 999) / 1000 = 2 ^ 50 + 1.
Proof. vm_compute. split; reflexivity. Qed.

End Float_facts.

(** ** The media repository *)

Section Query_facts.

Import Model Helpers.

Lemma matches_viewable_published m :
  matches [Published; Viewable] m = is_published m && is_viewable m.
Proof. unfold matches. cbn. rewrite andb_true_r. reflexivity. Qed.

Lemma filter_viewable_published db :
  List.filter (matches [Published; Viewable]) db = viewable_published db.
Proof.
  unfold viewable_published. apply List.filter_ext.
  exact matches_viewable_published.
Qed.

Lemma run_viewable_published db :
  run db (viewable_media (published query)) = viewable_published db.
Proof. unfold run. cbn. apply filter_viewable_published. Qed.

Lemma count_viewable_published db :
  count db (viewable_media (published query)) =
  Z.of_nat (length (viewable_published db)).
Proof. unfold count. rewrite run_viewable_published. reflexivity. Qed.

(** The page that [google] selects: [offset(o).limit(n)] on the media
    set. *)
Lemma run_page db n o :
  run db (limit n (offset o (viewable_media (published query)))) =
  firstn (Z.to_nat n) (skipn (Z.to_nat o) (viewable_published db)).
Proof. unfold run. cbn. rewrite filter_viewable_published. reflexivity. Qed.

End Query_facts.

(** ** [google] and [mrss] *)

Section Google.

Import Model Helpers SitemapsController.

Lemma enabled_true flag : enabled flag = true <-> flag = "True".
Proof. unfold enabled. apply String.eqb_eq. Qed.

Lemma enabled_false flag : enabled flag = false <-> flag <> "True".
Proof. unfold enabled. apply String.eqb_neq. Qed.

Lemma google_urlset_spec env p :
  google_urlset env (viewable_media (published query)) p =
  match page_items (db env) p with
  | [] => NotFound
  | _ :: _ =>
      Ok (UrlSet
            (limit 1000 (offset (p * 1000) (viewable_media (published query))))
            p (if 1 <=? p then [] else sitemap_links))
  end.
Proof.
  unfold google_urlset, len, SITEMAP_MEDIA_LIMIT.
  rewrite run_page. change (Z.to_nat 1000) with 1000%nat.
  fold (page_items (db env) p).
  destruct (page_items (db env) p); reflexivity.
Qed.


Lemma google_disabled env page :
  sitemaps_display (settings env) <> "True" -> google env page = NotFound.
Proof.
  intros H. apply enabled_false in H. unfold google. rewrite H. reflexivity.
Qed.

Lemma google_malformed env s :
  Py.int s = None -> google env (Some s) = NotFound.
Proof.
  intros H. unfold google, parse_page. rewrite H.
  destruct (negb _); reflexivity.
Qed.

Lemma google_page env s p :
  sitemaps_display (settings env) = "True" ->
  Py.int s = Some p ->
  google env (Some s) = google_urlset env (viewable_media (published query)) p.
Proof.
  intros H Hp. apply enabled_true in H.
  unfold google, parse_page. rewrite H, Hp. reflexivity.
Qed.

Lemma google_no_page env :
  sitemaps_display (settings env) = "True" ->
  google env None =
  let c := Z.of_nat (length (viewable_published (db env))) in
  if 1000 <? c then
    Ok (SitemapIndex (Py.ceil (Py.fdiv (Py.float_of_int c)
                                 (Py.float_of_int 1000))))
  else google_urlset env (viewable_media (published query)) 0.
Proof.
  intros H. apply enabled_true in H.
  unfold google, parse_page, SITEMAP_MEDIA_LIMIT. rewrite H.
  cbn [negb]. rewrite count_viewable_published. reflexivity.
Qed.

Lemma page_items_0 db :
  (length (viewable_published db) <= 1000)%nat ->
  page_items db 0 = viewable_published db.
Proof.
  intros H. unfold page_items. cbn [Z.mul Z.to_nat skipn].
  apply firstn_all2. exact H.
Qed.

Lemma page_items_0_nil db :
  page_items db 0 = [] <-> viewable_published db = [].
Proof.
  unfold page_items. cbn [Z.mul Z.to_nat skipn].
  destruct (viewable_published db) as [| m rows]; [tauto |].
  change (firstn 1000 (m :: rows)) with (m :: firstn 999 rows).
  split; discriminate.
Qed.

Lemma sitemap_links_qualified :
  length sitemap_links = 4%nat /\
  List.Forall (fun u => qualified u = true) sitemap_links.
Proof. split; [reflexivity | repeat constructor]. Qed.

End Google.

Section Google_claims.

Import Model Helpers SitemapsController.

(** C1.  A call to [google] without a page parameter on a site whose
    count [c] of viewable-and-published media is above 1000 returns
    the sitemap index, carrying only [pages = ceil (c / 1000)], and no
    item list.  The site has sitemaps enabled, and [c] is a row count
    that a float holds exactly ([c < 2 ^ 53]). *)
Theorem google_large_site_index env :
  sitemaps_display (settings env) = "True" ->
  let c := Z.of_nat (length (viewable_published (db env))) in
  1000 < c < 2 ^ 53 ->
  let pages := (c + 999) / 1000 in
  google env None = Ok (SitemapIndex pages) /\
  (pages - 1) * 1000 < c <= pages * 1000.
Proof.
  intros Hon c Hc pages. split.
  - rewrite google_no_page by exact Hon. cbv zeta. fold c.
    destruct (Z.ltb_spec 1000 c); [| lia].
    rewrite ceil_fdiv_1000 by exact Hc. reflexivity.
  - unfold pages.
    pose proof (Z.div_mod (c + 999) 1000 ltac:(lia)).
    pose proof (Z.mod_pos_bound (c + 999) 1000 ltac:(lia)).
    lia.
Qed.

Lemma google_large_site_index_witness :
  google (Sample.site Sample.all_on 2500) None = Ok (SitemapIndex 3).
Proof.
  refine (proj1 (google_large_site_index (Sample.site Sample.all_on 2500) _ _)).
  - reflexivity.
  - vm_compute. split; reflexivity.
Defined.

(** The page counts quoted with C1. *)
Example google_pages_quoted :
  map (fun n => google (Sample.site Sample.all_on n) None)
      [1001; 2000; 2001; 2500]%nat =
  map (fun p => Ok (SitemapIndex p)) [2; 2; 3; 3].
Proof. vm_compute. reflexivity. Qed.

(** C2 (as amended).  A call to [google] without a page parameter on a
    site with sitemaps enabled and at most 1000 viewable-and-published
    media returns the full listing of those media as page 0, with the
    four navigation links, when there is at least one of them; on a
    site without any it answers [NotFound]. *)
Theorem google_small_site_listing env :
  sitemaps_display (settings env) = "True" ->
  let c := Z.of_nat (length (viewable_published (db env))) in
  c <= 1000 ->
  (1 <= c ->
   exists q,
     google env None = Ok (UrlSet q 0 sitemap_links) /\
     run (db env) q = viewable_published (db env) /\
     length sitemap_links = 4%nat) /\
  (c = 0 -> google env None = NotFound).
Proof.
  intros Hon c Hc.
  assert (Hitems : page_items (db env) 0 = viewable_published (db env)).
  { apply page_items_0. unfold c in Hc. lia. }
  assert (Hgoogle : google env None =
                    google_urlset env (viewable_media (published query)) 0).
  { rewrite google_no_page by exact Hon. cbv zeta. fold c.
    destruct (Z.ltb_spec 1000 c); [lia | reflexivity]. }
  rewrite Hgoogle, google_urlset_spec, Hitems. split.
  - intros Hpos.
    exists (limit 1000 (offset (0 * 1000) (viewable_media (published query)))).
    split; [| split; [rewrite run_page; exact Hitems | reflexivity]].
    destruct (viewable_published (db env)); [cbn in c; lia | reflexivity].
  - intros Hzero.
    destruct (viewable_published (db env)); [reflexivity | cbn in c; lia].
Qed.

Lemma google_small_site_listing_witness :
  exists q,
    google (Sample.site Sample.all_on 10) None = Ok (UrlSet q 0 sitemap_links) /\
    run (Sample.table 10) q = viewable_published (Sample.table 10) /\
    length sitemap_links = 4%nat.
Proof.
  refine (proj1 (google_small_site_listing (Sample.site Sample.all_on 10) _ _) _).
  - reflexivity.
  - vm_compute. discriminate.
  - vm_compute. discriminate.
Defined.

(** C2 as stated fails on the empty site: with sitemaps enabled and
    no media ([c = 0 <= 1000]) the call is answered with [NotFound],
    not with a listing. *)
Lemma google_empty_site_counterexample :
  let env := Sample.site Sample.all_on 0 in
  sitemaps_display (settings env) = "True" /\
  Z.of_nat (length (viewable_published (db env))) <= 1000 /\
  google env None = NotFound /\
  ~ (exists q links, google env None = Ok (UrlSet q 0 links)).
Proof.
  cbv zeta. repeat apply conj.
  - reflexivity.
  - vm_compute. discriminate.
  - reflexivity.
  - intros (q & links & H). vm_compute in H. discriminate.
Qed.

(** C3 (as amended).  With sitemaps enabled, an explicitly supplied
    page [p >= 0] whose slice (offset [p * 1000], limit [1000]) is not
    empty is answered with that slice and page number [p], never with
    the sitemap index, whatever the total count; the four fully
    qualified navigation links are included exactly when [p = 0], and
    the link list is empty for [p >= 1].  A page whose slice is empty
    is answered with [NotFound]. *)
Theorem google_explicit_page env s p :
  sitemaps_display (settings env) = "True" ->
  Py.int s = Some p ->
  0 <= p ->
  (page_items (db env) p <> [] ->
   exists q,
     google env (Some s) =
       Ok (UrlSet q p (if p =? 0 then sitemap_links else [])) /\
     run (db env) q = page_items (db env) p /\
     length sitemap_links = 4%nat /\
     List.Forall (fun u => qualified u = true) sitemap_links) /\
  (page_items (db env) p = [] -> google env (Some s) = NotFound).
Proof.
  intros Hon Hs Hp.
  rewrite (google_page env s p Hon Hs), google_urlset_spec. split.
  - intros Hitems.
    exists (limit 1000 (offset (p * 1000) (viewable_media (published query)))).
    split; [| split; [apply run_page | apply sitemap_links_qualified]].
    destruct (page_items (db env) p); [congruence |].
    destruct (Z.leb_spec 1 p), (Z.eqb_spec p 0); solve [reflexivity | lia].
  - intros ->. reflexivity.
Qed.

Lemma google_explicit_page_witness :
  exists q,
    google (Sample.site Sample.all_on 1500) (Some "1") = Ok (UrlSet q 1 []) /\
    run (Sample.table 1500) q = page_items (Sample.table 1500) 1 /\
    length sitemap_links = 4%nat /\
    List.Forall (fun u => qualified u = true) sitemap_links.
Proof.
  refine (proj1 (google_explicit_page
                   (Sample.site Sample.all_on 1500) "1" 1 _ _ _) _).
  - reflexivity.
  - reflexivity.
  - discriminate.
  - vm_compute. discriminate.
Defined.

(** The two requests quoted with C3: page 0 of a site of 1500 media is
    its first 1000 media with the four links, page 1 is the media at
    positions 1000 to 1499 with no link. *)
Example google_pages_of_1500 :
  let env := Sample.site Sample.all_on 1500 in
  (exists q, google env (Some "0") = Ok (UrlSet q 0 sitemap_links) /\
             run (db env) q = firstn 1000 (viewable_published (db env))) /\
  (exists q, google env (Some "1") = Ok (UrlSet q 1 []) /\
             run (db env) q = skipn 1000 (viewable_published (db env)) /\
             length (run (db env) q) = 500%nat).
Proof.
  cbv zeta. split.
  - exists (limit 1000 (offset 0 (viewable_media (published query)))).
    split; vm_compute; reflexivity.
  - exists (limit 1000 (offset 1000 (viewable_media (published query)))).
    repeat apply conj; vm_compute; reflexivity.
Qed.

(** C3 as stated fails on a page past the end: with sitemaps enabled
    and 1500 media, the explicitly supplied page 2 is not answered
    with an item slice but with [NotFound]. *)
Lemma google_page_past_end_counterexample :
  let env := Sample.site Sample.all_on 1500 in
  sitemaps_display (settings env) = "True" /\
  Py.int "2" = Some 2 /\
  google env (Some "2") = NotFound /\
  ~ (exists q links, google env (Some "2") = Ok (UrlSet q 2 links)).
Proof.
  cbv zeta. repeat apply conj.
  - reflexivity.
  - reflexivity.
  - vm_compute. reflexivity.
  - intros (q & links & H). vm_compute in H. discriminate.
Qed.

(** C4.  [google] answers [NotFound] exactly when sitemaps are not
    enabled, or the supplied page does not parse as an integer, or the
    selected slice (offset [page * 1000], limit [1000], page [0] when
    none is supplied) is empty; in every other case it returns a
    result.  The supplied page, when it is an integer, is not
    negative. *)
Theorem google_not_found_iff env page :
  0 <= requested_page page ->
  (google env page = NotFound <->
     sitemaps_display (settings env) <> "True" \/
     (exists s, page = Some s /\ Py.int s = None) \/
     page_items (db env) (requested_page page) = []) /\
  (google env page <> NotFound -> exists r, google env page = Ok r).
Proof.
  intros _. split.
  2:{ destruct (google env page) as [r |]; [eauto | congruence]. }
  destruct (String.eqb_spec (sitemaps_display (settings env)) "True")
    as [Hon | Hoff].
  2:{ rewrite google_disabled by exact Hoff. tauto. }
  destruct page as [s |]; cbn [requested_page].
  - destruct (Py.int s) as [p |] eqn:Hs.
    + rewrite (google_page env s p Hon Hs), google_urlset_spec.
      destruct (page_items (db env) p) eqn:E.
      * tauto.
      * split; [discriminate |].
        intros [H | [(s' & Hs' & Hnone) | H]]; [tauto | | discriminate].
        congruence.
    + rewrite google_malformed by exact Hs. split; [| reflexivity].
      intros _. right. left. eauto.
  - rewrite google_no_page by exact Hon. cbv zeta.
    destruct (Z.ltb_spec 1000 (Z.of_nat (length (viewable_published (db env)))))
      as [Hlarge | Hsmall].
    + split; [discriminate |].
      intros [H | [(s' & Hs' & _) | H]]; [tauto | discriminate |].
      apply page_items_0_nil in H. rewrite H in Hlarge. cbn in Hlarge. lia.
    + rewrite google_urlset_spec.
      destruct (page_items (db env) 0) eqn:E.
      * tauto.
      * split; [discriminate |].
        intros [H | [(s' & Hs' & _) | H]]; [tauto | discriminate | discriminate].
Qed.

Lemma google_not_found_iff_witness :
  let env := Sample.site Sample.all_on 1500 in
  (google env (Some "2") = NotFound <->
     sitemaps_display (settings env) <> "True" \/
     (exists s, Some "2" = Some s /\ Py.int s = None) \/
     page_items (db env) 2 = []) /\
  (google env (Some "2") <> NotFound ->
   exists r, google env (Some "2") = Ok r).
Proof.
  apply (google_not_found_iff (Sample.site Sample.all_on 1500) (Some "2")).
  vm_compute. discriminate.
Defined.

(** C6.  When [sitemaps_display] is not the enabled value, [google] and
    [mrss] both answer [NotFound], whatever the page parameter and the
    media table. *)
Theorem sitemaps_disabled_not_found env page :
  sitemaps_display (settings env) <> "True" ->
  google env page = NotFound /\ mrss env = NotFound.
Proof.
  intros Hoff. split; [apply google_disabled; exact Hoff |].
  apply enabled_false in Hoff. unfold mrss. rewrite Hoff. reflexivity.
Qed.

Lemma sitemaps_disabled_not_found_witness :
  google (Sample.site Sample.all_off 2500) (Some "1") = NotFound /\
  mrss (Sample.site Sample.all_off 2500) = NotFound.
Proof.
  apply (sitemaps_disabled_not_found (Sample.site Sample.all_off 2500)).
  discriminate.
Defined.

End Google_claims.

(** ** [latest] and [featured] *)

Section Feeds.

Import Model Helpers SitemapsController.

#[local] Instance newer_first_total : Total newer_first.
Proof. intros a b. unfold newer_first. lia. Qed.

#[local] Instance newer_first_trans : Transitive newer_first.
Proof. intros a b c. unfold newer_first. lia. Qed.

(** The rows of a published-and-viewable query ordered by publish
    time, newest first. *)
Lemma newest_first_sorted db :
  let rows := merge_sort newer_first (viewable_published db) in
  rows ≡ₚ viewable_published db /\ StronglySorted newer_first rows.
Proof.
  split.
  - apply merge_sort_Permutation.
  - apply StronglySorted_merge_sort; typeclasses eauto.
Qed.

Lemma window_paged limit skip (rows : list Media) :
  window limit (if 0 <? skip then Some skip else None) rows =
  paged limit skip rows.
Proof. unfold window, paged. destruct (0 <? skip); reflexivity. Qed.

(** The query [latest] and [featured] build on top of a base query
    [q]: limit when set, offset when positive. *)
Lemma run_latest db limit skip :
  let media := viewable_media (order_by PublishOnDesc (published query)) in
  let media := match limit with
               | Some n => Model.limit n media
               | None => media
               end in
  let media := if 0 <? skip then offset skip media else media in
  run db media =
  paged limit skip (merge_sort newer_first (viewable_published db)).
Proof.
  cbv zeta. rewrite <- window_paged.
  destruct limit, (0 <? skip); unfold run; cbn;
    rewrite filter_viewable_published; reflexivity.
Qed.

Lemma length_paged_le n skip (rows : list Media) :
  0 <= n -> Z.of_nat (length (paged (Some n) skip rows)) <= n.
Proof.
  intros Hn. unfold paged. rewrite length_take. lia.
Qed.

Lemma filter_matches_cons f fs db :
  List.filter (matches (f :: fs)) db =
  List.filter (matches fs) (List.filter (holds f) db).
Proof.
  induction db as [| m db IH]; [reflexivity |].
  cbn [List.filter]. unfold matches at 1. cbn [forallb]. fold (matches fs m).
  destruct (holds f m); cbn [andb List.filter].
  - destruct (matches fs m); rewrite IH; reflexivity.
  - exact IH.
Qed.

(** A query evaluated on a table is the query without its first filter
    evaluated on the rows that pass that filter. *)
Lemma run_first_filter db f fs o lim off :
  run db {| q_filters := f :: fs; q_order := o;
            q_limit := lim; q_offset := off |} =
  run (List.filter (holds f) db)
      {| q_filters := fs; q_order := o; q_limit := lim; q_offset := off |}.
Proof. unfold run. cbn. rewrite filter_matches_cons. reflexivity. Qed.

End Feeds.

Section Feed_claims.

Import Model Helpers SitemapsController.

(** C7.  With [rss_display] enabled, [latest] returns the feed titled
    "Latest Media" over the viewable published media ordered by publish
    time, newest first; a positive [skip] passes over that many rows
    and a limit, when set, caps the number of rows returned.  The
    limit, when set, is not negative. *)
Theorem latest_newest_first env limit skip :
  rss_display (settings env) = "True" ->
  (forall n, limit = Some n -> 0 <= n) ->
  exists q rows,
    latest env limit skip =
      Ok {| feed_media := q; feed_title := "Latest Media" |} /\
    rows ≡ₚ viewable_published (db env) /\
    StronglySorted newer_first rows /\
    run (db env) q = paged limit skip rows /\
    (forall n, limit = Some n -> Z.of_nat (length (run (db env) q)) <= n).
Proof.
  intros Hon Hlimit. apply enabled_true in Hon.
  pose proof (newest_first_sorted (db env)) as [Hperm Hsorted].
  pose proof (run_latest (db env) limit skip) as Hrun. cbv zeta in Hrun.
  eexists. exists (merge_sort newer_first (viewable_published (db env))).
  split; [unfold latest; rewrite Hon; reflexivity |].
  split; [exact Hperm |].
  split; [exact Hsorted |].
  split; [exact Hrun |].
  intros n ->. rewrite Hrun. apply length_paged_le. auto.
Qed.

Lemma latest_newest_first_witness :
  exists q rows,
    latest (Sample.site Sample.all_on 10) (Some 5) 0 =
      Ok {| feed_media := q; feed_title := "Latest Media" |} /\
    rows ≡ₚ viewable_published (Sample.table 10) /\
    StronglySorted newer_first rows /\
    run (Sample.table 10) q = paged (Some 5) 0 rows /\
    (forall n, Some 5 = Some n ->
               Z.of_nat (length (run (Sample.table 10) q)) <= n).
Proof.
  apply (latest_newest_first (Sample.site Sample.all_on 10) (Some 5) 0).
  - reflexivity.
  - intros n [= <-]. discriminate.
Defined.

(** The request quoted with C7: [latest(limit=5, skip=0)] on ten
    published items returns the five most recent, newest first. *)
Example latest_5_of_10 :
  match latest (Sample.site Sample.all_on 10) (Some 5) 0 with
  | Ok feed =>
      map (fun m => (media_id m, publish_on m))
          (run (Sample.table 10) (feed_media feed)) =
      [(7%nat, 9); (4%nat, 8); (1%nat, 7); (8%nat, 6); (5%nat, 5)]
  | NotFound => False
  end.
Proof. vm_compute. reflexivity. Qed.

(** C8.  Validation in front of [latest] and [featured] never rejects
    a request: the action is always called, with no limit when the
    limit parameter is missing or not an integer, and with skip [0]
    when the skip parameter is missing, empty or not an integer. *)
Theorem validation_never_rejects env limit skip :
  exists l k,
    latest_action env limit skip = Called (latest env l k) /\
    featured_action env limit skip = Called (featured env l k) /\
    (limit = None \/ (exists s, limit = Some s /\ Py.int s = None) ->
     l = None) /\
    (skip = None \/ skip = Some "" \/
     (exists s, skip = Some s /\ Py.int s = None) ->
     k = 0).
Proof.
  unfold latest_action, featured_action, validate.
  assert (Hl : exists l,
             Validation.LimitFeedItemsValidator (feed_items_maximum env) limit
             = Validation.Valid l /\
             (limit = None \/ (exists s, limit = Some s /\ Py.int s = None) ->
              l = None)).
  { unfold Validation.LimitFeedItemsValidator.
    destruct limit as [s |].
    - destruct (Py.int s) as [n |] eqn:Hs.
      + eexists. split; [reflexivity |].
        intros [H | (s' & [= <-] & H)]; congruence.
      + eexists. split; reflexivity.
    - eexists. split; reflexivity. }
  assert (Hk : exists k,
             Validation.to_python skip_validator skip = Validation.Valid k /\
             (skip = None \/ skip = Some "" \/
              (exists s, skip = Some s /\ Py.int s = None) -> k = 0)).
  { unfold Validation.to_python, Validation.Int_to_python. cbn.
    destruct skip as [[| c s] |].
    - eexists. split; reflexivity.
    - destruct (Py.int (String c s)) as [n |] eqn:Hs.
      + eexists. split; [reflexivity |].
        intros [H | [H | (s' & [= <-] & H)]]; congruence.
      + eexists. split; reflexivity.
    - eexists. split; reflexivity. }
  destruct Hl as (l & -> & Hl), Hk as (k & -> & Hk).
  exists l, k. auto.
Qed.

(** The request quoted with C8: a limit of "bogus" is the same request
    as one without a limit. *)
Example latest_bogus_limit env skip :
  latest_action env (Some "bogus") skip = latest_action env None skip.
Proof. reflexivity. Qed.

(** C9.  [featured] returns what [latest] returns on the media set
    restricted to the featured category, under the same [rss_display]
    precondition and for every limit and skip: both answer [NotFound],
    or both return a feed with the same rows, that of [featured] being
    titled "Featured Media". *)
Theorem featured_is_latest_in_category env limit skip :
  match latest (featured_only env) limit skip, featured env limit skip with
  | Ok l, Ok f =>
      run (db env) (feed_media f) =
      run (db (featured_only env)) (feed_media l) /\
      feed_title f = "Featured Media"
  | NotFound, NotFound => True
  | _, _ => False
  end.
Proof.
  unfold latest, featured. cbn [settings featured_only].
  destruct (enabled (rss_display (settings env))); cbn [negb]; [| exact I].
  split; [| reflexivity].
  cbn [feed_media db featured_only]. unfold in_category_rows.
  destruct limit, (0 <? skip); apply run_first_filter.
Qed.

(** The request quoted with C9 on a sample site whose featured
    category holds the odd items. *)
Example featured_3_of_10 :
  match featured (Sample.site Sample.all_on 10) (Some 3) 0 with
  | Ok feed =>
      map (fun m => (media_id m, publish_on m))
          (run (Sample.table 10) (feed_media feed)) =
      [(7%nat, 9); (1%nat, 7); (5%nat, 5)]
  | NotFound => False
  end.
Proof. vm_compute. reflexivity. Qed.

(** C10.  A skip that is not positive, a negative one included, gives
    the same result as skip [0] in [latest] and in [featured]: the
    offset is only applied when skip is above [0]. *)
Theorem nonpositive_skip_is_zero env limit skip :
  skip <= 0 ->
  latest env limit skip = latest env limit 0 /\
  featured env limit skip = featured env limit 0.
Proof.
  intros Hskip. unfold latest, featured.
  destruct (Z.ltb_spec 0 skip); [lia |].
  split; reflexivity.
Qed.

Lemma nonpositive_skip_is_zero_witness :
  latest (Sample.site Sample.all_on 10) (Some 5) (-3) =
  latest (Sample.site Sample.all_on 10) (Some 5) 0 /\
  featured (Sample.site Sample.all_on 10) (Some 5) (-3) =
  featured (Sample.site Sample.all_on 10) (Some 5) 0.
Proof.
  apply (nonpositive_skip_is_zero (Sample.site Sample.all_on 10) (Some 5) (-3)).
  discriminate.
Defined.

(** A skip parameter of "-3" passes validation as [-3], and the
    request is answered as one with a skip of "0". *)
Example negative_skip_validated :
  Validation.to_python skip_validator (Some "-3") = Validation.Valid (-3).
Proof. reflexivity. Qed.

Example negative_skip_request env limit :
  latest_action env limit (Some "-3") = latest_action env limit (Some "0") /\
  featured_action env limit (Some "-3") = featured_action env limit (Some "0").
Proof. split; reflexivity. Qed.

End Feed_claims.

(** ** [crossdomain_xml] *)

Section Crossdomain_claims.

Import Helpers SitemapsController.

(** C5 (as amended).  [crossdomain_xml] tests the truth value of the
    [appearance_enable_cooliris] setting.  When it is false (the empty
    string) the call answers [NotFound] and leaves the cached file
    application absent; when it is true (any other string) the request
    is forwarded to the cached application, constructed first when
    absent and kept in the cache.  So after a disabled call the next
    enabled call forwards to a newly constructed application, not to
    the one cached before. *)
Theorem crossdomain_xml_gate env cached :
  (appearance_enable_cooliris (settings env) = "" ->
   crossdomain_xml env cached = (NotFound, None)) /\
  (appearance_enable_cooliris (settings env) <> "" ->
   let app := match cached with
              | Some app => app
              | None => crossdomain_file env
              end in
   crossdomain_xml env cached = (Ok app, Some app)) /\
  (forall env',
     appearance_enable_cooliris (settings env) = "" ->
     appearance_enable_cooliris (settings env') <> "" ->
     crossdomain_xml env' (snd (crossdomain_xml env cached)) =
     (Ok (crossdomain_file env'), Some (crossdomain_file env'))).
Proof.
  assert (Hoff : forall e c,
             appearance_enable_cooliris (settings e) = "" ->
             crossdomain_xml e c = (NotFound, None)).
  { intros e c H. unfold crossdomain_xml. rewrite H. cbn.
    destruct c; reflexivity. }
  assert (Hon : forall e c,
             appearance_enable_cooliris (settings e) <> "" ->
             crossdomain_xml e c =
             (Ok (match c with Some app => app | None => crossdomain_file e end),
              Some (match c with Some app => app | None => crossdomain_file e end))).
  { intros e c H. unfold crossdomain_xml.
    destruct (appearance_enable_cooliris (settings e)); [congruence |].
    reflexivity. }
  split; [apply Hoff |]. split; [apply Hon |].
  intros env' H H'. rewrite (Hoff env cached H). cbn [snd].
  rewrite (Hon env' None H'). reflexivity.
Qed.

(** C5 as stated fails on a setting that is neither empty nor the
    enabled value "True": the setting "False" is off when compared
    with the enabled value, yet [crossdomain_xml] forwards the request
    to the cached file application and keeps it. *)
Lemma crossdomain_xml_sentinel_counterexample :
  let off := {| sitemaps_display := "True"; rss_display := "True";
                appearance_enable_cooliris := "False" |} in
  let env := Sample.site off 10 in
  let cached := Some {| filename := "/srv/old/crossdomain.xml" |} in
  enabled (appearance_enable_cooliris (settings env)) = false /\
  crossdomain_xml env cached =
    (Ok {| filename := "/srv/old/crossdomain.xml" |}, cached) /\
  crossdomain_xml env cached <> (NotFound, None).
Proof. cbv zeta. repeat apply conj; [reflexivity | reflexivity | discriminate]. Qed.

Lemma crossdomain_xml_gate_witness :
  let env := Sample.site Sample.all_off 10 in
  let cached := Some {| filename := "/srv/old/crossdomain.xml" |} in
  crossdomain_xml env cached = (NotFound, None) /\
  crossdomain_xml (Sample.site Sample.all_on 10)
      (snd (crossdomain_xml env cached)) =
    (Ok {| filename := "/srv/mediadrop/mediadrop/public/crossdomain.xml" |},
     Some {| filename := "/srv/mediadrop/mediadrop/public/crossdomain.xml" |}).
Proof.
  cbv zeta.
  pose proof (crossdomain_xml_gate (Sample.site Sample.all_off 10)
                (Some {| filename := "/srv/old/crossdomain.xml" |}))
    as (Hoff & _ & Hnext).
  split.
  - apply Hoff. reflexivity.
  - apply (Hnext (Sample.site Sample.all_on 10)); [reflexivity | discriminate].
Defined.

End Crossdomain_claims.

(** * Further properties of the actions *)

Section More_google.

Import Model Helpers SitemapsController.

(** What a returned page of the sitemap is made of. *)
Lemma google_urlset_inv env page q p links :
  google env page = Ok (UrlSet q p links) ->
  sitemaps_display (settings env) = "True" /\
  q = limit 1000 (offset (p * 1000) (viewable_media (published query))) /\
  page_items (db env) p <> [] /\
  links = (if 1 <=? p then [] else sitemap_links) /\
  match page with
  | Some s => Py.int s = Some p
  | None => p = 0 /\ Z.of_nat (length (viewable_published (db env))) <= 1000
  end.
Proof.
  intros H.
  destruct (String.eqb_spec (sitemaps_display (settings env)) "True")
    as [Hon | Hoff].
  2:{ rewrite google_disabled in H by exact Hoff. discriminate. }
  split; [exact Hon |].
  assert (Hset : forall p',
             google_urlset env (viewable_media (published query)) p' =
               Ok (UrlSet q p links) ->
             p' = p /\
             q = limit 1000 (offset (p * 1000)
                               (viewable_media (published query))) /\
             page_items (db env) p <> [] /\
             links = (if 1 <=? p then [] else sitemap_links)).
  { intros p' H'. rewrite google_urlset_spec in H'.
    destruct (page_items (db env) p') eqn:E; [discriminate |].
    injection H' as <- <- <-. rewrite E. repeat apply conj; congruence. }
  destruct page as [s |].
  - destruct (Py.int s) as [p' |] eqn:Hs.
    + rewrite (google_page env s p' Hon Hs) in H.
      destruct (Hset p' H) as (-> & Hq & Hne & Hl). auto.
    + rewrite google_malformed in H by exact Hs. discriminate.
  - rewrite google_no_page in H by exact Hon. cbv zeta in H.
    destruct (Z.ltb_spec 1000 (Z.of_nat (length (viewable_published (db env)))));
      [discriminate |].
    destruct (Hset 0 H) as (<- & Hq & Hne & Hl). auto.
Qed.

Lemma length_page_items db p :
  length (page_items db p) =
  Nat.min 1000 (length (viewable_published db) - Z.to_nat (p * 1000)).
Proof. unfold page_items. rewrite length_take, length_drop. reflexivity. Qed.

Lemma page_items_nil_iff db p :
  0 <= p ->
  page_items db p = [] <->
  Z.of_nat (length (viewable_published db)) <= p * 1000.
Proof.
  intros Hp. rewrite <- length_zero_iff_nil, length_page_items. lia.
Qed.

Lemma sitemap_rows_page env s p :
  sitemaps_display (settings env) = "True" ->
  Py.int s = Some p ->
  sitemap_rows env (Some s) = page_items (db env) p.
Proof.
  intros Hon Hs. unfold sitemap_rows.
  rewrite (google_page env s p Hon Hs), google_urlset_spec.
  destruct (page_items (db env) p) eqn:E; [reflexivity |].
  rewrite run_page. exact E.
Qed.

(** The first [n] pages, one after the other, are the first [1000 * n]
    media. *)
Lemma page_items_concat db n :
  flat_map (fun i => page_items db (Z.of_nat i)) (seq 0 n) =
  firstn (1000 * n) (viewable_published db).
Proof.
  induction n as [| n IH]; [reflexivity |].
  rewrite seq_S, flat_map_app, IH. cbn [flat_map Nat.add].
  rewrite app_nil_r. unfold page_items.
  replace (Z.to_nat (Z.of_nat n * 1000)) with (1000 * n)%nat by lia.
  rewrite take_take_drop. f_equal. lia.
Qed.

Lemma flat_map_indexed {A B} (f : A -> list B) (g : nat -> list B) l k :
  (forall i a, l !! i = Some a -> f a = g (k + i)%nat) ->
  flat_map f l = flat_map g (seq k (length l)).
Proof.
  revert k. induction l as [| a l IH]; intros k H; [reflexivity |].
  cbn [flat_map length seq]. f_equal.
  - rewrite (H 0%nat a eq_refl). f_equal. lia.
  - apply IH. intros i b Hi.
    rewrite (H (S i) b Hi). f_equal. lia.
Qed.

End More_google.

Section More_google_properties.

Import Model Helpers SitemapsController.

(** X1.  With sitemaps enabled, an explicitly supplied page [p >= 0] is
    answered with a result exactly when [p] is below the number of
    pages [ceil (c / 1000)] of the site's [c] viewable-and-published
    media; every other page is answered with [NotFound]. *)
Theorem google_page_exists_iff env s p :
  sitemaps_display (settings env) = "True" ->
  Py.int s = Some p ->
  0 <= p ->
  let c := Z.of_nat (length (viewable_published (db env))) in
  (google env (Some s) <> NotFound <-> p < (c + 999) / 1000) /\
  (google env (Some s) = NotFound <-> (c + 999) / 1000 <= p).
Proof.
  intros Hon Hs Hp c.
  rewrite (google_page env s p Hon Hs), google_urlset_spec.
  pose proof (page_items_nil_iff (db env) p Hp) as Hnil. fold c in Hnil.
  pose proof (Z.div_mod (c + 999) 1000 ltac:(lia)) as Hdm.
  pose proof (Z.mod_pos_bound (c + 999) 1000 ltac:(lia)) as Hr.
  destruct (page_items (db env) p) as [| m rows].
  - assert (c <= p * 1000) by (apply Hnil; reflexivity).
    split; split; intros; solve [congruence | lia].
  - assert (~ c <= p * 1000) by (intros Hc; apply Hnil in Hc; discriminate).
    split; split; intros; solve [discriminate | lia].
Qed.

Lemma google_page_exists_iff_witness :
  let env := Sample.site Sample.all_on 1500 in
  (google env (Some "1") <> NotFound <-> 1 < 2) /\
  (google env (Some "1") = NotFound <-> 2 <= 1).
Proof.
  refine (google_page_exists_iff (Sample.site Sample.all_on 1500) "1" 1 _ _ _).
  - reflexivity.
  - reflexivity.
  - discriminate.
Defined.

(** X2.  With sitemaps enabled, the pages of the sitemap partition the
    media set: the rows answered for the pages [0], [1], ..., [n - 1],
    one after the other, are exactly the viewable-and-published media
    in their order, each once, as soon as [1000 * n] reaches their
    count (pages past the end contribute no row). *)
Theorem google_pages_partition env (pages : list string) :
  sitemaps_display (settings env) = "True" ->
  (forall i s, pages !! i = Some s -> Py.int s = Some (Z.of_nat i)) ->
  Z.of_nat (length (viewable_published (db env))) <=
    1000 * Z.of_nat (length pages) ->
  flat_map (fun s => sitemap_rows env (Some s)) pages =
  viewable_published (db env).
Proof.
  intros Hon Hpages Hcount.
  rewrite (flat_map_indexed _
             (fun i => page_items (db env) (Z.of_nat i)) pages 0).
  - rewrite page_items_concat. apply take_ge. lia.
  - intros i s Hi. apply sitemap_rows_page; [exact Hon |].
    apply Hpages. exact Hi.
Qed.

Lemma google_pages_partition_witness :
  let env := Sample.site Sample.all_on 1500 in
  flat_map (fun s => sitemap_rows env (Some s)) ["0"; "1"] =
  viewable_published (db env).
Proof.
  refine (google_pages_partition (Sample.site Sample.all_on 1500)
            ["0"; "1"] _ _ _).
  - reflexivity.
  - intros [| [| i]] s [= <-]; reflexivity.
  - vm_compute. discriminate.
Defined.

(** X3.  Every page of items that [google] returns holds at least one
    and at most 1000 media, whatever the request and the size of the
    site. *)
Theorem google_urlset_size env page q p links :
  google env page = Ok (UrlSet q p links) ->
  (1 <= length (run (db env) q) <= 1000)%nat.
Proof.
  intros H. apply google_urlset_inv in H as (_ & -> & Hne & _).
  rewrite run_page. change (Z.to_nat 1000) with 1000%nat.
  fold (page_items (db env) p).
  rewrite <- length_zero_iff_nil in Hne.
  rewrite length_page_items in *. lia.
Qed.

Lemma google_urlset_size_witness :
  let env := Sample.site Sample.all_on 1500 in
  let q := limit 1000 (offset 1000 (viewable_media (published query))) in
  (1 <= length (run (db env) q) <= 1000)%nat.
Proof.
  refine (google_urlset_size (Sample.site Sample.all_on 1500)
            (Some "1") _ 1 [] _).
  vm_compute. reflexivity.
Defined.

End More_google_properties.

Section More_google_shapes.

Import Model Helpers SitemapsController.

(** X4.  [google] returns the sitemap index exactly when sitemaps are
    enabled, no page is supplied and there are more than 1000
    viewable-and-published media: never for an explicit page, however
    large the site, and never for a site of at most 1000 media. *)
Theorem google_index_iff env page :
  (exists pages, google env page = Ok (SitemapIndex pages)) <->
  sitemaps_display (settings env) = "True" /\
  page = None /\
  1000 < Z.of_nat (length (viewable_published (db env))).
Proof.
  destruct (String.eqb_spec (sitemaps_display (settings env)) "True")
    as [Hon | Hoff].
  2:{ rewrite google_disabled by exact Hoff.
      split; [intros [n H]; discriminate | tauto]. }
  destruct page as [s |].
  - split; [| intros (_ & H & _); discriminate].
    intros [n H]. exfalso.
    destruct (Py.int s) as [p |] eqn:Hs.
    + rewrite (google_page env s p Hon Hs), google_urlset_spec in H.
      destruct (page_items (db env) p); discriminate.
    + rewrite google_malformed in H by exact Hs. discriminate.
  - rewrite google_no_page by exact Hon. cbv zeta.
    destruct (Z.ltb_spec 1000 (Z.of_nat (length (viewable_published (db env)))))
      as [Hlarge | Hsmall].
    + split; [tauto | eauto].
    + rewrite google_urlset_spec. split; [| lia].
      intros [n H]. destruct (page_items (db env) 0); discriminate.
Qed.

(** X5.  On a site of at most 1000 viewable-and-published media, a
    request without a page is answered as the request for page 0 is:
    the same listing, or [NotFound] for both. *)
Theorem google_default_page env s :
  Py.int s = Some 0 ->
  Z.of_nat (length (viewable_published (db env))) <= 1000 ->
  google env None = google env (Some s).
Proof.
  intros Hs Hc.
  destruct (String.eqb_spec (sitemaps_display (settings env)) "True")
    as [Hon | Hoff].
  - rewrite (google_page env s 0 Hon Hs), google_no_page by exact Hon.
    cbv zeta.
    destruct (Z.ltb_spec 1000 (Z.of_nat (length (viewable_published (db env)))));
      [lia | reflexivity].
  - rewrite !google_disabled by exact Hoff. reflexivity.
Qed.

Lemma google_default_page_witness :
  google (Sample.site Sample.all_on 10) None =
  google (Sample.site Sample.all_on 10) (Some " 0 ").
Proof.
  apply (google_default_page (Sample.site Sample.all_on 10) " 0 ").
  - reflexivity.
  - vm_compute. discriminate.
Defined.

(** X6.  With sitemaps enabled, [mrss] returns the feed titled
    "MediaRSS Sitemap" over every viewable-and-published media item, in
    table order, without limit or offset, however many there are. *)
Theorem mrss_lists_all env :
  sitemaps_display (settings env) = "True" ->
  exists q,
    mrss env = Ok {| feed_media := q; feed_title := "MediaRSS Sitemap" |} /\
    feed_rows env (mrss env) = viewable_published (db env) /\
    q_limit q = None /\ q_offset q = None.
Proof.
  intros Hon. apply enabled_true in Hon.
  exists (viewable_media (published query)).
  unfold feed_rows, mrss. rewrite Hon. cbn [negb feed_media].
  repeat apply conj; try reflexivity.
  apply run_viewable_published.
Qed.

Lemma mrss_lists_all_witness :
  let env := Sample.site Sample.all_on 1500 in
  exists q,
    mrss env = Ok {| feed_media := q; feed_title := "MediaRSS Sitemap" |} /\
    feed_rows env (mrss env) = viewable_published (db env) /\
    q_limit q = None /\ q_offset q = None.
Proof.
  apply (mrss_lists_all (Sample.site Sample.all_on 1500)). reflexivity.
Defined.

End More_google_shapes.

(** ** More on the feeds *)

Section More_feeds.

Import Model Helpers SitemapsController.

Lemma In_firstn_skipn {A} (x : A) n k l :
  In x (firstn n (skipn k l)) -> In x l.
Proof.
  intros H.
  rewrite <- (firstn_skipn k l). apply in_or_app. right.
  rewrite <- (firstn_skipn n (skipn k l)). apply in_or_app. left. exact H.
Qed.

Lemma In_window lim off rows m : In m (window lim off rows) -> In m rows.
Proof.
  unfold window. destruct lim as [n |], off as [k |]; intros H.
  - exact (In_firstn_skipn m _ _ rows H).
  - exact (In_firstn_skipn m _ 0 rows H).
  - apply (In_firstn_skipn m (length (skipn (Z.to_nat k) rows)) (Z.to_nat k)).
    rewrite firstn_all. exact H.
  - exact H.
Qed.

Lemma In_ordered o rows m : In m (ordered o rows) -> In m rows.
Proof.
  destruct o as [[] |]; cbn; [| tauto].
  apply Permutation_in, merge_sort_Permutation.
Qed.

(** A row of a query's result is a row of the table that passes every
    filter of the query. *)
Lemma In_run db q m :
  In m (run db q) -> In m db /\ matches (q_filters q) m = true.
Proof.
  intros H. apply In_window, In_ordered in H.
  apply List.filter_In in H. exact H.
Qed.

Lemma matches_In fs f m : matches fs m = true -> In f fs -> holds f m = true.
Proof.
  unfold matches. rewrite forallb_forall. auto.
Qed.

(** The filters, order and window of the queries of the two feeds. *)
Lemma latest_query env limit skip :
  rss_display (settings env) = "True" ->
  latest env limit skip =
  Ok {| feed_media :=
          {| q_filters := [Published; Viewable];
             q_order := Some PublishOnDesc;
             q_limit := limit;
             q_offset := if 0 <? skip then Some skip else None |};
        feed_title := "Latest Media" |}.
Proof.
  intros Hon. apply enabled_true in Hon. unfold latest. rewrite Hon.
  destruct limit, (0 <? skip); reflexivity.
Qed.

Lemma featured_query env limit skip :
  rss_display (settings env) = "True" ->
  featured env limit skip =
  Ok {| feed_media :=
          {| q_filters := [InCategory (featured_category env);
                           Published; Viewable];
             q_order := Some PublishOnDesc;
             q_limit := limit;
             q_offset := if 0 <? skip then Some skip else None |};
        feed_title := "Featured Media" |}.
Proof.
  intros Hon. apply enabled_true in Hon. unfold featured. rewrite Hon.
  destruct limit, (0 <? skip); reflexivity.
Qed.

Lemma latest_rows env limit skip :
  rss_display (settings env) = "True" ->
  feed_rows env (latest env limit skip) =
  paged limit skip (merge_sort newer_first (viewable_published (db env))).
Proof.
  intros Hon. rewrite (latest_query env limit skip Hon).
  unfold feed_rows, run. cbn.
  rewrite filter_viewable_published. apply window_paged.
Qed.

Lemma featured_rows env limit skip :
  rss_display (settings env) = "True" ->
  feed_rows env (featured env limit skip) =
  paged limit skip
    (merge_sort newer_first
       (viewable_published
          (in_category_rows (featured_category env) (db env)))).
Proof.
  intros Hon. rewrite (featured_query env limit skip Hon).
  unfold feed_rows. cbn [feed_media]. rewrite run_first_filter.
  unfold run. cbn. rewrite filter_viewable_published. apply window_paged.
Qed.

(** Consecutive windows of [n] rows make up a window of [2 * n] rows. *)
Lemma paged_consecutive n k (rows : list Media) :
  0 <= n -> 0 <= k ->
  paged (Some n) k rows ++ paged (Some n) (k + n) rows =
  paged (Some (2 * n)) k rows.
Proof.
  intros Hn Hk. unfold paged.
  replace (Z.to_nat (2 * n)) with (Z.to_nat n + Z.to_nat n)%nat by lia.
  destruct (Z.ltb_spec 0 k), (Z.ltb_spec 0 (k + n)).
  - rewrite <- take_take_drop, drop_drop. do 3 f_equal. lia.
  - lia.
  - rewrite <- take_take_drop. do 3 f_equal. lia.
  - replace n with 0 by lia. reflexivity.
Qed.

(** A window of rows that are sorted is sorted. *)
Lemma paged_sorted limit skip (rows : list Media) :
  StronglySorted newer_first rows ->
  StronglySorted newer_first (paged limit skip rows).
Proof.
  intros H.
  assert (Hdrop : forall k, StronglySorted newer_first (skipn k rows)).
  { intros k. rewrite <- (firstn_skipn k rows) in H.
    exact (StronglySorted_app_1_r _ _ _ H). }
  assert (Htake : forall n l,
             StronglySorted newer_first l ->
             StronglySorted newer_first (firstn n l)).
  { intros n l Hl. rewrite <- (firstn_skipn n l) in Hl.
    exact (StronglySorted_app_1_l _ _ _ Hl). }
  unfold paged. destruct limit, (0 <? skip); auto.
Qed.

Lemma feeds_disabled env limit skip :
  rss_display (settings env) <> "True" ->
  latest env limit skip = NotFound /\ featured env limit skip = NotFound.
Proof.
  intros Hoff. apply enabled_false in Hoff.
  unfold latest, featured. rewrite Hoff. split; reflexivity.
Qed.

End More_feeds.

Section More_feed_properties.

Import Model Helpers SitemapsController.

(** X7.  When [rss_display] is not the enabled value, [latest] and
    [featured] both answer [NotFound], whatever the limit, the skip and
    the media table. *)
Theorem feeds_disabled_not_found env limit skip :
  rss_display (settings env) <> "True" ->
  latest env limit skip = NotFound /\ featured env limit skip = NotFound.
Proof.
  intros Hoff. apply enabled_false in Hoff.
  unfold latest, featured. rewrite Hoff. split; reflexivity.
Qed.

Lemma feeds_disabled_not_found_witness :
  latest (Sample.site Sample.all_off 10) (Some 5) 2 = NotFound /\
  featured (Sample.site Sample.all_off 10) (Some 5) 2 = NotFound.
Proof.
  apply (feeds_disabled_not_found (Sample.site Sample.all_off 10)).
  discriminate.
Defined.

(** X8.  No action shows a media item that is not published or that
    the current user may not view: every row of a sitemap page, of
    the [mrss] feed, of [latest] and of [featured] is a row of the media
    table that is both published and viewable. *)
Theorem actions_show_only_viewable_published env page limit skip m :
  In m (sitemap_rows env page) \/
  In m (feed_rows env (mrss env)) \/
  In m (feed_rows env (latest env limit skip)) \/
  In m (feed_rows env (featured env limit skip)) ->
  In m (db env) /\ is_published m = true /\ is_viewable m = true.
Proof.
  assert (Hq : forall q,
             In Published (q_filters q) -> In Viewable (q_filters q) ->
             In m (run (db env) q) ->
             In m (db env) /\ is_published m = true /\ is_viewable m = true).
  { intros q Hp Hv H. apply In_run in H as [Hdb Hm].
    split; [exact Hdb |]. split.
    - exact (matches_In _ Published m Hm Hp).
    - exact (matches_In _ Viewable m Hm Hv). }
  intros [H | [H | [H | H]]].
  - unfold sitemap_rows in H.
    destruct (google env page) as [[n | q p links] |] eqn:E; try contradiction.
    apply google_urlset_inv in E as (_ & -> & _).
    revert H. apply Hq; cbn; auto.
  - unfold feed_rows, mrss in H.
    destruct (negb (enabled (sitemaps_display (settings env))));
      [contradiction |].
    revert H. apply Hq; cbn; auto.
  - destruct (String.eqb_spec (rss_display (settings env)) "True")
      as [Hon | Hoff].
    + rewrite (latest_query env limit skip Hon) in H.
      revert H. apply Hq; cbn; auto.
    + destruct (feeds_disabled env limit skip Hoff) as [E _].
      rewrite E in H. contradiction.
  - destruct (String.eqb_spec (rss_display (settings env)) "True")
      as [Hon | Hoff].
    + rewrite (featured_query env limit skip Hon) in H.
      revert H. apply Hq; cbn; auto.
    + destruct (feeds_disabled env limit skip Hoff) as [_ E].
      rewrite E in H. contradiction.
Qed.

Lemma actions_show_only_viewable_published_witness :
  let env := Sample.site Sample.all_on 10 in
  let m := Sample.item 7 9 in
  In m (db env) /\ is_published m = true /\ is_viewable m = true.
Proof.
  refine (actions_show_only_viewable_published
            (Sample.site Sample.all_on 10) None (Some 5) 0
            (Sample.item 7 9) _).
  right. right. left. vm_compute. left. reflexivity.
Defined.

(** What the two hidden rows of the sample table would be, were they
    shown: more recent than every row of the feeds. *)
Example hidden_rows_not_in_latest :
  let env := Sample.site Sample.all_on 10 in
  ~ In Sample.draft (feed_rows env (latest env None 0)) /\
  ~ In Sample.restricted (feed_rows env (latest env None 0)).
Proof.
  cbv zeta. split; vm_compute; intuition discriminate.
Qed.

(** X9.  With [rss_display] enabled, paging through a feed by [skip]
    loses and repeats nothing: the [n] rows at skip [k] followed by
    the [n] rows at skip [k + n] are the [2 * n] rows at skip [k], in
    [latest] and in [featured]. *)
Theorem feed_windows_compose env n k :
  rss_display (settings env) = "True" ->
  0 <= n -> 0 <= k ->
  feed_rows env (latest env (Some n) k) ++
    feed_rows env (latest env (Some n) (k + n)) =
  feed_rows env (latest env (Some (2 * n)) k) /\
  feed_rows env (featured env (Some n) k) ++
    feed_rows env (featured env (Some n) (k + n)) =
  feed_rows env (featured env (Some (2 * n)) k).
Proof.
  intros Hon Hn Hk. split.
  - rewrite !latest_rows by exact Hon. apply paged_consecutive; assumption.
  - rewrite !featured_rows by exact Hon. apply paged_consecutive; assumption.
Qed.

Lemma feed_windows_compose_witness :
  let env := Sample.site Sample.all_on 10 in
  feed_rows env (latest env (Some 3) 2) ++
    feed_rows env (latest env (Some 3) (2 + 3)) =
  feed_rows env (latest env (Some (2 * 3)) 2) /\
  feed_rows env (featured env (Some 3) 2) ++
    feed_rows env (featured env (Some 3) (2 + 3)) =
  feed_rows env (featured env (Some (2 * 3)) 2).
Proof.
  apply (feed_windows_compose (Sample.site Sample.all_on 10) 3 2).
  - reflexivity.
  - discriminate.
  - discriminate.
Defined.

(** X10.  The rows of [latest] and of [featured] are always in order of
    publish time, newest first, whatever the limit and the skip: each
    row is published no earlier than every row after it. *)
Theorem feeds_newest_first env limit skip :
  StronglySorted newer_first (feed_rows env (latest env limit skip)) /\
  StronglySorted newer_first (feed_rows env (featured env limit skip)).
Proof.
  destruct (String.eqb_spec (rss_display (settings env)) "True")
    as [Hon | Hoff].
  - rewrite latest_rows, featured_rows by exact Hon.
    split; apply paged_sorted, (newest_first_sorted _).
  - destruct (feeds_disabled env limit skip Hoff) as [-> ->].
    split; constructor.
Qed.

(** X11.  Every row of [featured] belongs to the featured category, and
    a limit that is set and not negative bounds the number of rows. *)
Theorem featured_rows_in_category env limit skip :
  (forall m, In m (feed_rows env (featured env limit skip)) ->
             In (featured_category env) (categories m)) /\
  (forall n, limit = Some n -> 0 <= n ->
             Z.of_nat (length (feed_rows env (featured env limit skip))) <= n).
Proof.
  destruct (String.eqb_spec (rss_display (settings env)) "True")
    as [Hon | Hoff].
  - split.
    + intros m H. rewrite (featured_query env limit skip Hon) in H.
      apply In_run in H as [_ Hm].
      apply (matches_In _ (InCategory (featured_category env))) in Hm;
        [| cbn; auto].
      cbn in Hm. apply existsb_exists in Hm as (c & Hc & Heq).
      apply Nat.eqb_eq in Heq. subst c. exact Hc.
    + intros n -> Hn. rewrite featured_rows by exact Hon.
      apply length_paged_le. exact Hn.
  - destruct (feeds_disabled env limit skip Hoff) as [_ ->].
    split; [intros m [] | intros n _ Hn; cbn; lia].
Qed.

End More_feed_properties.

Section More_crossdomain.

Import Helpers SitemapsController.

(** X12.  While the setting stays enabled, [crossdomain_xml] keeps
    forwarding to the file application of the first call: a second
    enabled call returns the response and the cache of the first, also
    when [config['here']] has changed in between. *)
Theorem crossdomain_xml_cache_stable env env' cached :
  appearance_enable_cooliris (settings env) <> "" ->
  appearance_enable_cooliris (settings env') <> "" ->
  crossdomain_xml env' (snd (crossdomain_xml env cached)) =
  crossdomain_xml env cached.
Proof.
  intros Hon Hon'. unfold crossdomain_xml.
  destruct (appearance_enable_cooliris (settings env)); [congruence |].
  destruct (appearance_enable_cooliris (settings env')); [congruence |].
  reflexivity.
Qed.

Lemma crossdomain_xml_cache_stable_witness :
  let env := Sample.site Sample.all_on 10 in
  let env' := {| settings := Sample.all_on; db := [];
                 featured_category := 0%nat; here := "/opt/other";
                 feed_items_maximum := 50 |} in
  crossdomain_xml env' (snd (crossdomain_xml env None)) =
  crossdomain_xml env None.
Proof.
  refine (crossdomain_xml_cache_stable (Sample.site Sample.all_on 10) _ None _ _);
    discriminate.
Defined.

End More_crossdomain.
